(** * pyrastr: a shallow embedding of the RastrWin3 COM wrapper (src/pyrastr/pyrastr.py)

    The wrapper is a thin layer over a COM object.  Every COM access
    (method call or property read/write) is modelled as one call to an
    engine, a step function on an opaque engine state; the wrapper code
    itself is translated into a small state/error monad that threads the
    engine state and the log of COM calls issued so far.  Python values
    crossing the API are the inductive [PyVal], Python exceptions the
    inductive [PyExc]. *)

From Stdlib Require Import String Ascii List ZArith Bool Lia.
Import ListNotations.
Local Open Scope string_scope.
Local Open Scope Z_scope.

(** ** Python runtime values and exceptions *)

Inductive PyVal : Type :=
| PyNone
| PyBool (b : bool)
| PyInt (z : Z)
| PyStr (s : string)
| PyCom (handle : Z)          (** a COM object returned by the engine *)
| PyObject (tyname : string)  (** any other Python object (float, list, dict, ...) *)
| PyExcObj (e : PyExc)        (** an exception object used as a value *)
with PyExc : Type :=
| ComError (descr : string)       (** pywintypes.com_error, raised through the COM bridge *)
| TypeError (msg : string)
| ValueError (msg : string)
| AssertionError (msg : string)
| Exception_ (msg : string)       (** a bare [Exception(...)] *)
| UnexpectedResult (message : PyVal).
(** [UnexpectedResult.__init__( *args)] stores [args[0]] in [message]; the
    wrapper always constructs it with exactly one argument. *)

(** [isinstance(x, str)] *)
Definition isinstance_str (v : PyVal) : bool :=
  match v with PyStr _ => true | _ => false end.

(** [isinstance(x, int)]: [bool] is a subclass of [int]. *)
Definition isinstance_int (v : PyVal) : bool :=
  match v with PyInt _ | PyBool _ => true | _ => false end.

(** [int(x)] on the values [isinstance_int] accepts. *)
Definition py_int_value (v : PyVal) : option Z :=
  match v with
  | PyInt z => Some z
  | PyBool b => Some (if b then 1 else 0)
  | _ => None
  end.

(** [x in l] for a list of Python strings: [==] between a [str] and a value
    of another type is [False]. *)
Definition py_in_strs (x : PyVal) (l : list string) : bool :=
  match x with
  | PyStr s => existsb (String.eqb s) l
  | _ => false
  end.

(** [l.index(x)] for a list of strings; [None] is the [ValueError] case. *)
Fixpoint str_index (s : string) (l : list string) : option Z :=
  match l with
  | [] => None
  | h :: t => if String.eqb s h then Some 0
              else match str_index s t with Some i => Some (i + 1) | None => None end
  end.

Definition py_index (x : PyVal) (l : list string) : option Z :=
  match x with PyStr s => str_index s l | _ => None end.

(** [",".join(parts)] *)
Fixpoint py_join (sep : string) (parts : list string) : string :=
  match parts with
  | [] => EmptyString
  | [p] => p
  | p :: rest => String.append p (String.append sep (py_join sep rest))
  end.

(** ** COM calls and the wrapper monad *)

Record Call : Type := mkCall {
  call_target : PyVal;
  call_method : string;
  call_args : list PyVal
}.

Inductive Outcome (A : Type) : Type :=
| Ret (a : A)
| Raise (e : PyExc).
Arguments Ret {A} a.
Arguments Raise {A} e.

Section Wrapper.

(** The COM engine: an opaque state and its answer to each call. *)
Variable EngState : Type.
Variable eng : EngState -> Call -> EngState * Outcome PyVal.

Definition St : Type := (EngState * list Call)%type.
Definition M (A : Type) : Type := St -> St * Outcome A.

Definition ret {A} (a : A) : M A := fun st => (st, Ret a).
Definition raise {A} (e : PyExc) : M A := fun st => (st, Raise e).
Definition bind {A B} (m : M A) (f : A -> M B) : M B :=
  fun st => let '(st', o) := m st in
            match o with Ret a => f a st' | Raise e => (st', Raise e) end.

Local Notation "x <- m ;; k" := (bind m (fun x => k))
  (at level 61, m at next level, right associativity).
Local Notation "m ;;; k" := (bind m (fun _ => k))
  (at level 61, right associativity).

(** One COM access: the engine answers and the call is logged. *)
Definition com (obj : PyVal) (meth : string) (args : list PyVal) : M PyVal :=
  fun '(s, tr) =>
    let c := mkCall obj meth args in
    let '(s', o) := eng s c in ((s', app tr [c]), o).

(** [try: m except Exception as err: h(err)]; every [PyExc] derives from
    [Exception]. *)
Definition try_except {A} (m : M A) (h : PyExc -> M A) : M A :=
  fun st => let '(st', o) := m st in
            match o with Ret a => (st', Ret a) | Raise e => h e st' end.

(** [assert cond, msg], run with assertions enabled iff [py_debug]
    (Python's [__debug__], false under [python -O]). *)
Definition py_assert (py_debug : bool) (cond : bool) (msg : string) : M unit :=
  if py_debug && negb cond then raise (AssertionError msg) else ret tt.

(** ** class Rastr *)

Record Rastr : Type := mkRastr { _Astra : PyVal }.

(** [self._pars]: the empty string, then "p", "z", "c", "r", "i". *)
Definition _pars : list string := [EmptyString; "p"; "z"; "c"; "r"; "i"].

(** [self._calc_codes.get(result)] with
    [self._calc_codes = {0: "AST_OK", 1: "AST_NB", 2: "AST_REPT"}]; a [bool]
    key hashes and compares as its integer value. *)
Definition calc_codes_get (result : PyVal) : PyVal :=
  match py_int_value result with
  | Some 0 => PyStr "AST_OK"
  | Some 1 => PyStr "AST_NB"
  | Some 2 => PyStr "AST_REPT"
  | _ => PyNone
  end.

(** [for letter in parameters:
        if letter not in self._pars:
            raise UnexpectedResult(f"... -> {parameters} -> {letter}")] *)
Fixpoint check_pars (parameters rest : string) : M unit :=
  match rest with
  | EmptyString => ret tt
  | String letter rest' =>
      if py_in_strs (PyStr (String letter EmptyString)) _pars
      then check_pars parameters rest'
      else raise (UnexpectedResult (PyStr (String.append "Incorrect calculation parameter -> "
                    (String.append parameters (String.append " -> " (String letter EmptyString))))))
  end.

(** The body shared by [rgm], [opf], [opt], [ekv], [kdd], [stepUt] and [ut];
    [meth] is the COM method each one calls. *)
Definition calc_entry (meth : string) (self : Rastr) (parameters : string) : M PyVal :=
  check_pars parameters parameters ;;;
  result <- com (_Astra self) meth [PyStr parameters] ;;
  ret (calc_codes_get result).

Definition rgm := calc_entry "rgm".
Definition opf := calc_entry "opf".
Definition opt := calc_entry "opt".
Definition ekv := calc_entry "ekv".
Definition kdd := calc_entry "kdd".
Definition stepUt := calc_entry "step_ut".
Definition ut := calc_entry "ut_utr".

(** ** class RastrTables, RastrTable, RastrColumns, RastrColumn *)

Record RastrColumn : Type := mkRastrColumn { _column : PyVal }.
Record RastrColumns : Type := mkRastrColumns { _cols : PyVal }.
Record RastrTable : Type := mkRastrTable { _table : PyVal; columns : RastrColumns }.
Record RastrTables : Type := mkRastrTables { _tables : PyVal }.

(** [RastrTable.__init__]: [self.columns = RastrColumns(self._table.Cols)]. *)
Definition RastrTable_init (table : PyVal) : M RastrTable :=
  cols <- com table "Cols" [] ;;
  ret (mkRastrTable table (mkRastrColumns cols)).

(** [removeByIndex], [removeByName]: [self._tables.Remove(x)], no return value. *)
Definition tables_removeByIndex (self : RastrTables) (index : PyVal) : M PyVal :=
  com (_tables self) "Remove" [index] ;;; ret PyNone.
Definition tables_removeByName (self : RastrTables) (name : PyVal) : M PyVal :=
  com (_tables self) "Remove" [name] ;;; ret PyNone.

(** [return RastrTable(self._tables.Item(x))] *)
Definition getTableByIndex (self : RastrTables) (index : PyVal) : M RastrTable :=
  t <- com (_tables self) "Item" [index] ;; RastrTable_init t.
Definition getTableByName (self : RastrTables) (name : PyVal) : M RastrTable :=
  t <- com (_tables self) "Item" [name] ;; RastrTable_init t.

(** [RastrTables.table(item)] *)
Definition table (self : RastrTables) (item : PyVal) : M RastrTable :=
  if isinstance_str item then getTableByName self item
  else if isinstance_int item then getTableByIndex self item
  else raise (UnexpectedResult (PyStr "Incorrect table name or index!")).

(** [RastrTables.removeTable(item)] *)
Definition removeTable (self : RastrTables) (item : PyVal) : M PyVal :=
  if isinstance_str item then tables_removeByName self item
  else if isinstance_int item then tables_removeByIndex self item
  else raise (UnexpectedResult (PyStr "Incorrect table name or index!")).

(** [RastrColumns.getByIndex], [RastrColumns.getByName] *)
Definition getByIndex (self : RastrColumns) (index : PyVal) : M RastrColumn :=
  c <- com (_cols self) "Item" [index] ;; ret (mkRastrColumn c).
Definition getByName (self : RastrColumns) (name : PyVal) : M RastrColumn :=
  c <- com (_cols self) "Item" [name] ;; ret (mkRastrColumn c).

(** [RastrTable.column(item)] *)
Definition column (self : RastrTable) (item : PyVal) : M RastrColumn :=
  if isinstance_str item then getByName (columns self) item
  else if isinstance_int item then getByIndex (columns self) item
  else raise (UnexpectedResult (PyStr "Incorrect column name or index")).

(** [x - n] for an [int] left operand. *)
Definition py_sub (x : PyVal) (n : Z) : M PyVal :=
  match py_int_value x with
  | Some z => ret (PyInt (z - n))
  | None => raise (TypeError "unsupported operand type(s) for -")
  end.

(** [self._table.AddRow(); return self._table.Size - 1] *)
Definition addRow (self : RastrTable) : M PyVal :=
  com (_table self) "AddRow" [] ;;;
  size <- com (_table self) "Size" [] ;;
  py_sub size 1.

(** [self._table.InsRow(row_id); return row_id - 1] *)
Definition insertRow (self : RastrTable) (row_id : Z) : M PyVal :=
  com (_table self) "InsRow" [PyInt row_id] ;;;
  ret (PyInt (row_id - 1)).

(** [self._table.DupRow(row_id); return row_id + 1] *)
Definition duplicateRow (self : RastrTable) (row_id : Z) : M PyVal :=
  com (_table self) "DupRow" [PyInt row_id] ;;;
  ret (PyInt (row_id + 1)).

(** [self._table.SetSel(selection); return self._table.Count] *)
Definition setSelection (self : RastrTable) (selection : string) : M PyVal :=
  com (_table self) "SetSel" [PyStr selection] ;;;
  com (_table self) "Count" [].

(** [return self._table.SetSel("")] (the argument is the empty string) *)
Definition clearSelection (self : RastrTable) : M PyVal :=
  com (_table self) "SetSel" [PyStr EmptyString].

(** [return bool(self._table.TestSel(row_id))] *)
Definition checkRowSelection (self : RastrTable) (row_id : Z) : M PyVal :=
  com (_table self) "TestSel" [PyInt row_id].

(** The properties [count] ([self._table.Count]) and [rowsCount] ([self._table.Size]). *)
Definition count (self : RastrTable) : M PyVal := com (_table self) "Count" [].
Definition rowsCount (self : RastrTable) : M PyVal := com (_table self) "Size" [].

(** [self._csv_codes.get(csv_code)] *)
Definition csv_codes_get (csv_code : string) : PyVal :=
  if String.eqb csv_code "CSV_ADD" then PyInt 0
  else if String.eqb csv_code "CSV_REPL" then PyInt 1
  else if String.eqb csv_code "CSV_KEY" then PyInt 2
  else if String.eqb csv_code "CSV_KEYADD" then PyInt 3
  else if String.eqb csv_code "CSV_REPLNAMES" then PyInt 5
  else PyNone.

(** [self._cdu_codes.get(cdu_code)] *)
Definition cdu_codes_get (cdu_code : string) : PyVal :=
  if String.eqb cdu_code "CDU_ADD" then PyInt 0
  else if String.eqb cdu_code "CDU_REPL" then PyInt 1
  else if String.eqb cdu_code "CDU_KEY" then PyInt 2
  else if String.eqb cdu_code "CDU_KEYADD" then PyInt 3
  else PyNone.

(** [except Exception as err: raise UnexpectedResult(err)] *)
Definition wrap_unexpected (err : PyExc) : M PyVal :=
  raise (UnexpectedResult (PyExcObj err)).

Definition writeToCSV (self : RastrTable) (filepath : string) (parameters : list string)
    (sep csv_code : string) : M PyVal :=
  try_except
    (com (_table self) "WriteCSV"
       [csv_codes_get csv_code; PyStr filepath; PyStr (py_join "," parameters); PyStr sep] ;;;
     ret PyNone)
    wrap_unexpected.

Definition readCSV (self : RastrTable) (filepath : string) (parameters : list string)
    (sep csv_code default_parameters : string) : M PyVal :=
  try_except
    (com (_table self) "ReadCSV"
       [csv_codes_get csv_code; PyStr filepath; PyStr (py_join "," parameters); PyStr sep;
        PyStr default_parameters] ;;;
     ret PyNone)
    wrap_unexpected.

Definition writeToCDU (self : RastrTable) (filepath : string) (parameters : list string)
    (cdu_code : string) : M PyVal :=
  try_except
    (com (_table self) "WriteCDU"
       [cdu_codes_get cdu_code; PyStr filepath; PyStr (py_join "," parameters)] ;;;
     ret PyNone)
    wrap_unexpected.

Definition readCDU (self : RastrTable) (filepath : string) (parameters : list string)
    (cdu_code default_parameters : string) : M PyVal :=
  try_except
    (com (_table self) "ReadCDU"
       [cdu_codes_get cdu_code; PyStr filepath; PyStr (py_join "," parameters);
        PyStr default_parameters] ;;;
     ret PyNone)
    wrap_unexpected.

(** [RastrColumn.__init__]: [self._property_types], [self._value_types]. *)
Definition _property_types : list string :=
  ["FL_NAME"; "FL_TIP"; "FL_WIDTH"; "FL_PREC"; "FL_ZAG"; "FL_FORMULA"; "FL_AFOR"; "FL_XRM";
   "FL_NAMEREF"; "FL_DESC"; "FL_MIN"; "FL_MAX"; "FL_MASH"].
Definition _value_types : list string := ["scaled"; "not_scaled"; "scaled_string"].

(** [self._property_types.index(property_type)] *)
Definition property_index (property_type : PyVal) : M Z :=
  match py_index property_type _property_types with
  | Some i => ret i
  | None => raise (ValueError "is not in list")
  end.

(** [assert property_type in self._property_types, ...;
    return self._column.Prop(self._property_types.index(property_type))] *)
Definition getProperty (py_debug : bool) (self : RastrColumn) (property_type : PyVal) : M PyVal :=
  py_assert py_debug (py_in_strs property_type _property_types) "Incorrect column property type!" ;;;
  i <- property_index property_type ;;
  com (_column self) "Prop" [PyInt i].

(** [assert ...; self._column.SetProp(self._property_types.index(property_type), value)] *)
Definition setProperty (py_debug : bool) (self : RastrColumn) (property_type value : PyVal) : M PyVal :=
  py_assert py_debug (py_in_strs property_type _property_types) "Incorrect column property type!" ;;;
  i <- property_index property_type ;;
  com (_column self) "SetProp" [PyInt i; value] ;;;
  ret PyNone.

(** [value_type == "..."] as a [match]/[case] string pattern compares. *)
Definition py_eq_str (v : PyVal) (s : string) : bool :=
  match v with PyStr t => String.eqb t s | _ => false end.

(** [RastrColumn.setValue]: [assert value_type in self._value_types] then
    [match value_type] with no default case. *)
Definition setValue (py_debug : bool) (self : RastrColumn) (row_id : Z) (value value_type : PyVal)
    : M PyVal :=
  py_assert py_debug (py_in_strs value_type _value_types) "Incorrect value type!" ;;;
  if py_eq_str value_type "scaled" then com (_column self) "SetZN" [PyInt row_id; value] ;;; ret PyNone
  else if py_eq_str value_type "not_scaled" then com (_column self) "SetZ" [PyInt row_id; value] ;;; ret PyNone
  else if py_eq_str value_type "scaled_string" then com (_column self) "SetZS" [PyInt row_id; value] ;;; ret PyNone
  else ret PyNone.

(** [RastrColumn.getValue]: [if value_type not in self._value_types: raise Exception(...)]
    then [match value_type]. *)
Definition getValue (self : RastrColumn) (row_id : Z) (value_type : PyVal) : M PyVal :=
  if negb (py_in_strs value_type _value_types) then raise (Exception_ "Incorrect value type!")
  else if py_eq_str value_type "scaled" then com (_column self) "ZN" [PyInt row_id]
  else if py_eq_str value_type "not_scaled" then com (_column self) "Z" [PyInt row_id]
  else if py_eq_str value_type "scaled_string" then com (_column self) "ZS" [PyInt row_id]
  else ret PyNone.

(** ** Further members of [Rastr] *)

(** [Rastr.load].  The static method [getTemplate] searches the user's
    template directory on disk; it is the parameter [get_template]. *)
Definition load (get_template : string -> M string) (self : Rastr) (filepath rg_code : string)
    (template : option string) (use_template : bool) : M PyVal :=
  let go code :=
    match template with
    | None =>
        if use_template then
          t <- get_template filepath ;;
          com (_Astra self) "Load" [PyInt code; PyStr filepath; PyStr t] ;;; ret PyNone
        else com (_Astra self) "Load" [PyInt code; PyStr filepath] ;;; ret PyNone
    | Some t => com (_Astra self) "Load" [PyInt code; PyStr filepath; PyStr t] ;;; ret PyNone
    end in
  if String.eqb rg_code "RG_ADD" then go 0
  else if String.eqb rg_code "RG_REPL" then go 1
  else if String.eqb rg_code "RG_KEY" then go 2
  else if String.eqb rg_code "RG_ADDKEY" then go 3
  else raise (UnexpectedResult (PyStr "Incorrect parameter rg_kod!")).

(** [Rastr.loadOldFile] *)
Definition loadOldFile (get_template : string -> M string) (self : Rastr) (mode filepath : string)
    (template : option string) : M PyVal :=
  let go code :=
    match template with
    | None =>
        t <- get_template filepath ;;
        com (_Astra self) "LoadOldFile" [PyInt code; PyStr filepath; PyStr t] ;;; ret PyNone
    | Some t => com (_Astra self) "LoadOldFile" [PyInt code; PyStr filepath; PyStr t] ;;; ret PyNone
    end in
  if String.eqb mode "rge" then go 0
  else if String.eqb mode "cxe" then go 1
  else raise (UnexpectedResult (PyStr "Incorrect parameter mode!")).

Definition ut_param_names : list string := ["UT_FORM_P"; "UT_ADD_P"; "UT_TIP"; "UT_STATUS"].

(** [Rastr.utParam]: [assert parameter in [...]; return self._Astra.ut_Param(parameter)] *)
Definition utParam (py_debug : bool) (self : Rastr) (parameter : PyVal) : M PyVal :=
  py_assert py_debug (py_in_strs parameter ut_param_names) "Incorrect weighting parameter!" ;;;
  com (_Astra self) "ut_Param" [parameter].

(** ** Further members of [RastrColumns] and [RastrTable] *)

(** [RastrColumns.__init__]: [self._column_types] *)
Definition _column_types : list string :=
  ["PR_INT"; "PR_REAL"; "PR_STRING"; "PR_BOOL"; "PR_ENUM"; "PR_ENPIC"; "PR_COLOR"].

(** [RastrColumns.add]: [assert column_type in self._column_types, ...;
    return RastrColumn(self._cols.Add(name, self._column_types.index(column_type)))] *)
Definition columns_add (py_debug : bool) (self : RastrColumns) (name column_type : PyVal)
    : M RastrColumn :=
  py_assert py_debug (py_in_strs column_type _column_types) "Incorrect column value type!" ;;;
  i <- match py_index column_type _column_types with
       | Some i => ret i
       | None => raise (ValueError "is not in list")
       end ;;
  c <- com (_cols self) "Add" [name; PyInt i] ;;
  ret (mkRastrColumn c).

(** [x == n] for an integer [n]: [bool] compares as its integer value. *)
Definition py_eq_int (v : PyVal) (n : Z) : bool :=
  match py_int_value v with Some z => Z.eqb z n | None => false end.

(** [RastrTable.findNextRowSelection]: the engine's [-1] becomes [None]. *)
Definition findNextRowSelection (self : RastrTable) (row_id : PyVal) : M PyVal :=
  next_row_id <- com (_table self) "FindNextSel" [row_id] ;;
  if py_eq_int next_row_id (-1) then ret PyNone else ret next_row_id.

(** The first [n] items the generator [RastrTable.iterRows()] yields
    ([itertools.islice(table.iterRows(), n)]): each item costs one
    [findNextRowSelection] from the previous item; [None] ends it. *)
Fixpoint iter_rows_take (self : RastrTable) (n : nat) (prev : PyVal) : M (list PyVal) :=
  match n with
  | O => ret []
  | S n' =>
      row_id <- findNextRowSelection self prev ;;
      match row_id with
      | PyNone => ret []
      | _ => rest <- iter_rows_take self n' row_id ;; ret (row_id :: rest)
      end
  end.

Definition iterRows_take (self : RastrTable) (n : nat) : M (list PyVal) :=
  iter_rows_take self n (PyInt (-1)).

(** [class RowIterator]: [self.idx], [self.table]. *)
Record RowIterator : Type := mkRowIterator { idx : PyVal; ri_table : PyVal }.

(** [RastrTable.__iter__]: [RowIterator(self._table)], [start = -1]. *)
Definition RastrTable_iter (self : RastrTable) : RowIterator :=
  mkRowIterator (PyInt (-1)) (_table self).

(** [RowIterator.__next__]: [self.idx = self.table.FindNextSel(self.idx);
    if self.idx != -1: return self.idx; raise StopIteration].  The iterator
    is returned with its new [idx]; [None] stands for [StopIteration]. *)
Definition RowIterator_next (self : RowIterator) : M (RowIterator * option PyVal) :=
  i <- com (ri_table self) "FindNextSel" [idx self] ;;
  let self' := mkRowIterator i (ri_table self) in
  if negb (py_eq_int i (-1)) then ret (self', Some i) else ret (self', None).

(** The first [n] items of [itertools.islice(iter(table), n)]. *)
Fixpoint RowIterator_take (n : nat) (it : RowIterator) : M (list PyVal) :=
  match n with
  | O => ret []
  | S n' =>
      r <- RowIterator_next it ;;
      match snd r with
      | None => ret []
      | Some v => rest <- RowIterator_take n' (fst r) ;; ret (v :: rest)
      end
  end.

(** [RastrTable.get]: [c = self.column(column); return c.get(row_id, value_type)],
    where [RastrColumn.get = getValue]. *)
Definition RastrTable_get (self : RastrTable) (row_id : Z) (col value_type : PyVal) : M PyVal :=
  c <- column self col ;; getValue c row_id value_type.

(** [RastrTable.set]: [c = self.column(column); return c.setValue(row_id, value, value_type)] *)
Definition RastrTable_set (py_debug : bool) (self : RastrTable) (row_id : Z)
    (col value value_type : PyVal) : M PyVal :=
  c <- column self col ;; setValue py_debug c row_id value value_type.

(** The columns [column(column_id)] for [column_id] in [i, i + k). *)
Fixpoint columns_from (self : RastrTable) (i : Z) (k : nat) : M (list RastrColumn) :=
  match k with
  | O => ret []
  | S k' => c <- column self (PyInt i) ;; rest <- columns_from self (i + 1) k' ;; ret (c :: rest)
  end.

(** [list(table.iterColumns())]: [for column_id in range(0, self.columns.count):
    yield self.column(column_id)]; [range] needs an [int]. *)
Definition iterColumns_list (self : RastrTable) : M (list RastrColumn) :=
  n <- com (_cols (columns self)) "Count" [] ;;
  match py_int_value n with
  | Some z => columns_from self 0 (Z.to_nat z)
  | None => raise (TypeError "object cannot be interpreted as an integer")
  end.

End Wrapper.

Arguments ret {EngState A} a.
Arguments raise {EngState A} e.
Arguments bind {EngState A B} m f.
Arguments com {EngState} eng obj meth args.
Arguments try_except {EngState A} m h.
Arguments py_assert {EngState} py_debug cond msg.
Arguments check_pars {EngState} parameters rest.
Arguments calc_entry {EngState} eng meth self parameters.
Arguments rgm {EngState} eng.
Arguments opf {EngState} eng.
Arguments opt {EngState} eng.
Arguments ekv {EngState} eng.
Arguments kdd {EngState} eng.
Arguments stepUt {EngState} eng.
Arguments ut {EngState} eng.
Arguments RastrTable_init {EngState} eng table.
Arguments tables_removeByIndex {EngState} eng self index.
Arguments tables_removeByName {EngState} eng self name.
Arguments getTableByIndex {EngState} eng self index.
Arguments getTableByName {EngState} eng self name.
Arguments table {EngState} eng self item.
Arguments removeTable {EngState} eng self item.
Arguments getByIndex {EngState} eng self index.
Arguments getByName {EngState} eng self name.
Arguments column {EngState} eng self item.
Arguments py_sub {EngState} x n.
Arguments addRow {EngState} eng self.
Arguments insertRow {EngState} eng self row_id.
Arguments duplicateRow {EngState} eng self row_id.
Arguments setSelection {EngState} eng self selection.
Arguments clearSelection {EngState} eng self.
Arguments checkRowSelection {EngState} eng self row_id.
Arguments count {EngState} eng self.
Arguments rowsCount {EngState} eng self.
Arguments wrap_unexpected {EngState} err.
Arguments writeToCSV {EngState} eng self filepath parameters sep csv_code.
Arguments readCSV {EngState} eng self filepath parameters sep csv_code default_parameters.
Arguments writeToCDU {EngState} eng self filepath parameters cdu_code.
Arguments readCDU {EngState} eng self filepath parameters cdu_code default_parameters.
Arguments property_index {EngState} property_type.
Arguments getProperty {EngState} eng py_debug self property_type.
Arguments setProperty {EngState} eng py_debug self property_type value.
Arguments setValue {EngState} eng py_debug self row_id value value_type.
Arguments getValue {EngState} eng self row_id value_type.
Arguments load {EngState} eng get_template self filepath rg_code template use_template.
Arguments loadOldFile {EngState} eng get_template self mode filepath template.
Arguments utParam {EngState} eng py_debug self parameter.
Arguments columns_add {EngState} eng py_debug self name column_type.
Arguments findNextRowSelection {EngState} eng self row_id.
Arguments iter_rows_take {EngState} eng self n prev.
Arguments iterRows_take {EngState} eng self n.
Arguments RowIterator_next {EngState} eng self.
Arguments RowIterator_take {EngState} eng n it.
Arguments RastrTable_get {EngState} eng self row_id col value_type.
Arguments RastrTable_set {EngState} eng py_debug self row_id col value value_type.
Arguments columns_from {EngState} eng self i k.
Arguments iterColumns_list {EngState} eng self.

(** The seven calculation entry points of [Rastr] and the COM method each calls. *)
Inductive CalcEntryPoint : Type := Rgm | Opf | Opt | Ekv | Kdd | StepUt | Ut.

Definition entry_method (e : CalcEntryPoint) : string :=
  match e with
  | Rgm => "rgm" | Opf => "opf" | Opt => "opt" | Ekv => "ekv" | Kdd => "kdd"
  | StepUt => "step_ut" | Ut => "ut_utr"
  end.

Definition calc_entry_point {EngState} (eng : EngState -> Call -> EngState * Outcome PyVal)
    (e : CalcEntryPoint) : Rastr -> string -> M EngState PyVal :=
  match e with
  | Rgm => rgm eng | Opf => opf eng | Opt => opt eng | Ekv => ekv eng | Kdd => kdd eng
  | StepUt => stepUt eng | Ut => ut eng
  end.

(** The one-letter parameters [_pars] accepts (its empty-string entry never
    equals a letter). *)
Definition calc_alphabet : list ascii := ["p"%char; "z"%char; "c"%char; "r"%char; "i"%char].

(** ** The engine side of one table

    RastrWin3's table object is not part of this repository.  This model of
    it follows the wrapper's docstrings: [AddRow] appends an empty row,
    [InsRow(i)] inserts an empty row before row [i], [DupRow(i)] places a copy
    of row [i] right after it, [SetSel(s)] sets the selection (the empty
    string clears it) and, as [setSelection] shows by reading [Count]
    afterwards, returns no value; [Size] is the number of rows, [Count] the
    number of selected rows, [TestSel(i)] tests membership.  [sel_holds] is
    the engine's evaluation of a selection predicate on a row. *)
Record TblState : Type := mkTbl {
  tbl_rows : list (list PyVal);
  tbl_sel : option string     (** [None]: no selection, every row selected *)
}.

Definition row_selected (sel_holds : string -> list PyVal -> bool) (s : TblState)
    (row : list PyVal) : bool :=
  match tbl_sel s with None => true | Some p => sel_holds p row end.

Definition tbl_eng (sel_holds : string -> list PyVal -> bool) (s : TblState) (c : Call)
    : TblState * Outcome PyVal :=
  let rows := tbl_rows s in
  let n := Z.of_nat (length rows) in
  let unknown := (s, Raise (ComError "Unknown name")) in
  let m := call_method c in
  match call_args c with
  | [] =>
      if String.eqb m "AddRow" then (mkTbl (app rows [[]]) (tbl_sel s), Ret PyNone)
      else if String.eqb m "Size" then (s, Ret (PyInt n))
      else if String.eqb m "Count" then
        (s, Ret (PyInt (Z.of_nat (length (filter (row_selected sel_holds s) rows)))))
      else unknown
  | [PyInt i] =>
      if negb ((0 <=? i) && (i <? n)) then (s, Raise (ComError "Index out of range"))
      else
        let k := Z.to_nat i in
        if String.eqb m "InsRow" then
          (mkTbl (app (firstn k rows) ([] :: skipn k rows)) (tbl_sel s), Ret PyNone)
        else if String.eqb m "DupRow" then
          (mkTbl (app (firstn (S k) rows) (nth k rows [] :: skipn (S k) rows)) (tbl_sel s), Ret PyNone)
        else if String.eqb m "TestSel" then
          (s, Ret (PyBool (row_selected sel_holds s (nth k rows []))))
        else unknown
  | [PyStr p] =>
      if String.eqb m "SetSel" then
        (mkTbl rows (if String.eqb p EmptyString then None else Some p), Ret PyNone)
      else unknown
  | _ => unknown
  end.

(** The table the examples below talk to: table object [PyCom 1], its
    column collection [PyCom 2]. *)
Definition tbl_self : RastrTable := mkRastrTable (PyCom 1) (mkRastrColumns (PyCom 2)).

(** An engine with no state of interest that answers every call with the
    integer [z]. *)
Definition const_eng (z : Z) (s : unit) (c : Call) : unit * Outcome PyVal := (s, Ret (PyInt z)).

(** The keys of [self._csv_codes] and [self._cdu_codes]. *)
Definition csv_code_names : list string :=
  ["CSV_ADD"; "CSV_REPL"; "CSV_KEY"; "CSV_KEYADD"; "CSV_REPLNAMES"].
Definition cdu_code_names : list string := ["CDU_ADD"; "CDU_REPL"; "CDU_KEY"; "CDU_KEYADD"].

(** An engine with no state of interest that raises [e] on every call. *)
Definition raise_eng (e : PyExc) (s : unit) (c : Call) : unit * Outcome PyVal := (s, Raise e).

(** ** [UnexpectedResult.__str__] and [str()] *)

(** Python truthiness of a value; [None] where it depends on the object
    (an empty container is false).  A pywin32 COM object is always true,
    and so is an exception object. *)
Definition py_truthy (v : PyVal) : option bool :=
  match v with
  | PyNone => Some false
  | PyBool b => Some b
  | PyInt z => Some (negb (Z.eqb z 0))
  | PyStr s => Some (negb (String.eqb s EmptyString))
  | PyCom _ => Some true
  | PyObject _ => None
  | PyExcObj _ => Some true
  end.

(** [str(UnexpectedResult(message))]: [__str__] returns [self.message] when
    it is truthy and the default text otherwise; [str()] raises [TypeError]
    when [__str__] returns something that is not a [str]. *)
Definition UnexpectedResult_str (message : PyVal) : option (Outcome string) :=
  match py_truthy message with
  | None => None
  | Some true =>
      match message with
      | PyStr s => Some (Ret s)
      | _ => Some (Raise (TypeError "__str__ returned non-string"))
      end
  | Some false => Some (Ret "Unexpected execution result!")
  end.

(** ** [RastrEvents.OnLog] *)

(** [__RastrCodeInfo.get(code)] *)
Definition rastr_code_info (code : Z) : option string :=
  if code =? 0 then Some "System Error" else if code =? 1 then Some "Failed"
  else if code =? 2 then Some "Error" else if code =? 3 then Some "Warning"
  else if code =? 4 then Some "Message" else if code =? 5 then Some "Info"
  else if code =? 6 then Some "Stage Open" else if code =? 7 then Some "Stage Close"
  else if code =? 8 then Some "Enter Default" else if code =? 9 then Some "Reset"
  else if code =? 10 then Some "None"
  else None.

(** [__loggingCodes.get(name)], with the [logging] module's numeric levels
    CRITICAL 50, ERROR 40, WARNING 30, INFO 20, DEBUG 10, NOTSET 0. *)
Definition logging_codes (name : option string) : option Z :=
  match name with
  | None => None
  | Some n =>
      if String.eqb n "System Error" then Some 50
      else if String.eqb n "Failed" then Some 50
      else if String.eqb n "Error" then Some 40
      else if String.eqb n "Warning" then Some 30
      else if String.eqb n "Message" then Some 20
      else if String.eqb n "Info" then Some 20
      else if String.eqb n "Stage Open" then Some 10
      else if String.eqb n "Stage Close" then Some 10
      else if String.eqb n "Enter Default" then Some 10
      else if String.eqb n "Reset" then Some 10
      else if String.eqb n "None" then Some 0
      else None
  end.

(** [OnLog(code, level, id_, name, index, description, form_name)]: the
    record [logging.log(level=..., msg=description)] emits, as (level,
    message); [logging.log] raises [TypeError] for a level that is not an
    [int] ([logging.raiseExceptions] is true by default). *)
Definition OnLog (code : Z) (description : PyVal) : Outcome (Z * PyVal) :=
  match logging_codes (rastr_code_info code) with
  | Some level => Ret (level, description)
  | None => Raise (TypeError "level must be an integer")
  end.

(** ** The engine side of [FindNextSel]

    [FindNextSel(row_id)] answers the first selected row after [row_id], or
    [-1] (the wrapper's docstring: "finds the next row from row_id that is in
    the current selection"); every other call is answered by [tbl_eng]. *)
Fixpoint find_from (sel_holds : string -> list PyVal -> bool) (s : TblState)
    (l : list (list PyVal)) (j : nat) : option nat :=
  match l with
  | [] => None
  | r :: l' => if row_selected sel_holds s r then Some j else find_from sel_holds s l' (S j)
  end.

Definition tbl_eng_iter (sel_holds : string -> list PyVal -> bool) (s : TblState) (c : Call)
    : TblState * Outcome PyVal :=
  match call_method c, call_args c with
  | "FindNextSel", [PyInt i] =>
      let start := Z.to_nat (i + 1) in
      (s, Ret (PyInt (match find_from sel_holds s (skipn start (tbl_rows s)) start with
                      | Some j => Z.of_nat j
                      | None => -1
                      end)))
  | _, _ => tbl_eng sel_holds s c
  end.

(** ** Helper lemmas *)

Lemma letter_in_pars (c : ascii) :
  py_in_strs (PyStr (String c EmptyString)) _pars = true <-> In c calc_alphabet.
Proof.
  unfold py_in_strs, _pars, calc_alphabet; simpl.
  destruct (Ascii.eqb_spec c "p"%char); [subst; simpl; tauto|].
  destruct (Ascii.eqb_spec c "z"%char); [subst; simpl; tauto|].
  destruct (Ascii.eqb_spec c "c"%char); [subst; simpl; tauto|].
  destruct (Ascii.eqb_spec c "r"%char); [subst; simpl; tauto|].
  destruct (Ascii.eqb_spec c "i"%char); [subst; simpl; tauto|].
  simpl; split; [discriminate|].
  intros [H|[H|[H|[H|[H|[]]]]]]; congruence.
Qed.

Lemma check_pars_cons {EngState} (parameters rest : string) (c : ascii) :
  @check_pars EngState parameters (String c rest) =
  if py_in_strs (PyStr (String c EmptyString)) _pars then check_pars parameters rest
  else raise (UnexpectedResult (PyStr (String.append "Incorrect calculation parameter -> "
                (String.append parameters (String.append " -> " (String c EmptyString)))))).
Proof. reflexivity. Qed.

Lemma check_pars_ok {EngState} (parameters rest : string) (st : St EngState) :
  Forall (fun c => In c calc_alphabet) (list_ascii_of_string rest) ->
  check_pars parameters rest st = (st, Ret tt).
Proof.
  induction rest as [|c rest IH]; intros H; [reflexivity|].
  simpl in H; inversion H; subst.
  rewrite check_pars_cons. apply letter_in_pars in H2; rewrite H2; auto.
Qed.

Lemma check_pars_bad {EngState} (parameters rest : string) (st : St EngState) :
  Exists (fun c => ~ In c calc_alphabet) (list_ascii_of_string rest) ->
  exists msg, check_pars parameters rest st = (st, Raise (UnexpectedResult msg)).
Proof.
  induction rest as [|c rest IH]; intros H; simpl in H; [inversion H|].
  rewrite check_pars_cons.
  destruct (py_in_strs (PyStr (String c EmptyString)) _pars) eqn:E.
  - apply IH. inversion H; subst; auto.
    apply letter_in_pars in E; contradiction.
  - eexists; reflexivity.
Qed.

Lemma calc_alphabet_dec (l : list ascii) :
  Forall (fun c => In c calc_alphabet) l \/ Exists (fun c => ~ In c calc_alphabet) l.
Proof.
  induction l as [|c l IH]; [left; constructor|].
  destruct (in_dec ascii_dec c calc_alphabet) as [Hin|Hout].
  - destruct IH as [IH|IH]; [left; constructor; auto | right; apply Exists_cons_tl; auto].
  - right; apply Exists_cons_hd; auto.
Qed.

Lemma calc_entry_point_method {EngState} eng e :
  @calc_entry_point EngState eng e = calc_entry eng (entry_method e).
Proof. destruct e; reflexivity. Qed.

Lemma app_cons_neq {A} (l : list A) (x : A) : app l [x] <> l.
Proof. intros H; apply (f_equal (@length A)) in H; rewrite length_app in H; simpl in H; lia. Qed.

Lemma calc_codes_get_int (z : Z) :
  calc_codes_get (PyInt z) =
  if z =? 0 then PyStr "AST_OK" else if z =? 1 then PyStr "AST_NB"
  else if z =? 2 then PyStr "AST_REPT" else PyNone.
Proof.
  destruct z as [|p|p]; [reflexivity| |reflexivity].
  destruct p as [p|p|]; [reflexivity| destruct p; reflexivity | reflexivity].
Qed.

(** [clearSelection] issues exactly one COM call, [SetSel] with the empty
    string, and returns whatever that call returns. *)
Lemma clearSelection_is_SetSel {EngState} eng (self : RastrTable) (st : EngState) tr :
  clearSelection eng self (st, tr) =
  let c := mkCall (_table self) "SetSel" [PyStr EmptyString] in
  ((fst (eng st c), app tr [c]), snd (eng st c)).
Proof. unfold clearSelection, com; simpl; destruct (eng st _); reflexivity. Qed.

Lemma range_check (i : Z) (n : nat) :
  0 <= i < Z.of_nat n -> (0 <=? i) && (i <? Z.of_nat n) = true.
Proof. intros H; apply andb_true_intro; split; [apply Z.leb_le | apply Z.ltb_lt]; lia. Qed.

Lemma py_in_strs_In (k : string) (l : list string) :
  py_in_strs (PyStr k) l = true <-> In k l.
Proof.
  unfold py_in_strs. rewrite existsb_exists. split.
  - intros [x [Hx He]]. apply String.eqb_eq in He; subst; auto.
  - intros H; exists k; split; auto. apply String.eqb_refl.
Qed.

Lemma str_index_In (k : string) (l : list string) :
  In k l -> exists i, str_index k l = Some i.
Proof.
  induction l as [|h t IH]; simpl; [tauto|].
  intros H. destruct (String.eqb_spec k h); [eauto|].
  destruct H as [H|H]; [congruence|].
  destruct (IH H) as [i Hi]; rewrite Hi; eauto.
Qed.

Lemma str_index_bound (k : string) (l : list string) (i : Z) :
  str_index k l = Some i -> 0 <= i < Z.of_nat (length l).
Proof.
  revert i; induction l as [|h t IH]; simpl; intros i H; [discriminate|].
  destruct (String.eqb k h); [injection H as <-; lia|].
  destruct (str_index k t) as [j|] eqn:E; [|discriminate].
  injection H as <-. specialize (IH j eq_refl). lia.
Qed.

Lemma str_index_some_In (k : string) (l : list string) (i : Z) :
  str_index k l = Some i -> In k l.
Proof.
  revert i; induction l as [|h t IH]; simpl; intros i H; [discriminate|].
  destruct (String.eqb_spec k h); [auto|].
  destruct (str_index k t) eqn:E; [right; eapply IH; reflexivity|discriminate].
Qed.

Lemma str_index_notIn (k : string) (l : list string) :
  ~ In k l -> str_index k l = None.
Proof.
  induction l as [|h t IH]; simpl; [reflexivity|].
  intros H. destruct (String.eqb_spec k h); [subst; tauto|].
  rewrite IH; tauto.
Qed.

Lemma csv_codes_get_unknown (code : string) :
  ~ In code csv_code_names -> csv_codes_get code = PyNone.
Proof.
  unfold csv_codes_get, csv_code_names; simpl; intros H.
  repeat match goal with
         | |- context [String.eqb code ?k] =>
             destruct (String.eqb_spec code k); [exfalso; apply H; subst; simpl; tauto|]
         end; reflexivity.
Qed.

Lemma cdu_codes_get_unknown (code : string) :
  ~ In code cdu_code_names -> cdu_codes_get code = PyNone.
Proof.
  unfold cdu_codes_get, cdu_code_names; simpl; intros H.
  repeat match goal with
         | |- context [String.eqb code ?k] =>
             destruct (String.eqb_spec code k); [exfalso; apply H; subst; simpl; tauto|]
         end; reflexivity.
Qed.

(** Every file operation is one COM call inside [try]: an engine exception
    [e] comes back as [UnexpectedResult(e)], a normal answer as [None]. *)
Lemma try_com_wrapped {EngState} eng (obj : PyVal) (meth : string) (args : list PyVal)
    (st : EngState) tr :
  try_except (bind (com eng obj meth args) (fun _ => ret PyNone)) wrap_unexpected (st, tr) =
  let c := mkCall obj meth args in
  ((fst (eng st c), app tr [c]),
   match snd (eng st c) with
   | Ret _ => Ret PyNone
   | Raise e => Raise (UnexpectedResult (PyExcObj e))
   end).
Proof.
  unfold try_except, bind, com, ret, wrap_unexpected, raise; simpl.
  destruct (eng st _) as [st' [a|e]]; reflexivity.
Qed.

(** ** Claims *)

(** C1: for every calculation entry point and every parameter string [s],
    the call raises the wrapper's validation error before any COM call,
    leaving engine state and call log unchanged, if and only if [s] contains
    a character outside {p, z, c, r, i}. *)
Theorem calc_validation_iff {EngState} (eng : EngState -> Call -> EngState * Outcome PyVal)
    (e : CalcEntryPoint) (self : Rastr) (s : string) (st : EngState) (tr : list Call) :
  (exists msg, calc_entry_point eng e self s (st, tr) = ((st, tr), Raise (UnexpectedResult msg)))
  <-> Exists (fun c => ~ In c calc_alphabet) (list_ascii_of_string s).
Proof.
  rewrite calc_entry_point_method; unfold calc_entry, bind.
  split.
  - intros [msg H].
    destruct (calc_alphabet_dec (list_ascii_of_string s)) as [Hok|Hbad]; [|exact Hbad].
    exfalso. rewrite (check_pars_ok s s (st, tr) Hok) in H.
    unfold com in H.
    destruct (eng st _) as [st' o]; destruct o; inversion H; subst;
      eapply app_cons_neq; eassumption.
  - intros Hbad. destruct (check_pars_bad s s (st, tr) Hbad) as [msg H].
    exists msg. rewrite H. reflexivity.
Qed.

Example calc_validation_pzc_px :
  snd (check_pars (EngState := unit) "pzc" "pzc" (tt, [])) = Ret tt /\
  snd (check_pars (EngState := unit) "px" "px" (tt, [])) =
    Raise (UnexpectedResult (PyStr "Incorrect calculation parameter -> px -> x")).
Proof. split; reflexivity. Qed.

(** C2 (evaluation at the failing input): on a table engine whose [SetSel]
    returns no value, [clearSelection] does clear the selection, but it
    returns [None], not the full row count that [rowsCount] reports. *)
Theorem clearSelection_returns_none (sel_holds : string -> list PyVal -> bool)
    (rows : list (list PyVal)) (sel : option string) (tr : list Call) :
  let '(st1, o) := clearSelection (tbl_eng sel_holds) tbl_self (mkTbl rows sel, tr) in
  tbl_sel (fst st1) = None /\ o = Ret PyNone /\
  snd (rowsCount (tbl_eng sel_holds) tbl_self st1) = Ret (PyInt (Z.of_nat (length rows))).
Proof. repeat split. Qed.

(** C3: on the table engine, for every table and every row id in range,
    [addRow] appends an empty row and returns its id, the new [fullSize]
    minus one; [insertRow(row_id)] inserts an empty row before [row_id] and
    returns [row_id - 1]; [duplicateRow(row_id)] puts a copy of the row right
    after it and returns [row_id + 1]. *)
Theorem row_edit_returns (sel_holds : string -> list PyVal -> bool)
    (rows : list (list PyVal)) (sel : option string) (tr : list Call) (row_id : Z)
    (Hrow : 0 <= row_id < Z.of_nat (length rows)) :
  (let '(st1, o) := addRow (tbl_eng sel_holds) tbl_self (mkTbl rows sel, tr) in
   tbl_rows (fst st1) = app rows [[]] /\
   snd (rowsCount (tbl_eng sel_holds) tbl_self st1) = Ret (PyInt (Z.of_nat (length rows) + 1)) /\
   o = Ret (PyInt (Z.of_nat (length rows) + 1 - 1)) /\
   nth (length rows) (tbl_rows (fst st1)) [PyNone] = []) /\
  (let '(st1, o) := insertRow (tbl_eng sel_holds) tbl_self row_id (mkTbl rows sel, tr) in
   tbl_rows (fst st1) = app (firstn (Z.to_nat row_id) rows) ([] :: skipn (Z.to_nat row_id) rows) /\
   o = Ret (PyInt (row_id - 1))) /\
  (let '(st1, o) := duplicateRow (tbl_eng sel_holds) tbl_self row_id (mkTbl rows sel, tr) in
   tbl_rows (fst st1) =
     app (firstn (S (Z.to_nat row_id)) rows)
         (nth (Z.to_nat row_id) rows [] :: skipn (S (Z.to_nat row_id)) rows) /\
   nth (Z.to_nat (row_id + 1)) (tbl_rows (fst st1)) [] = nth (Z.to_nat row_id) rows [] /\
   o = Ret (PyInt (row_id + 1))).
Proof.
  pose proof (range_check row_id (length rows) Hrow) as Hb.
  split; [|split].
  - cbn. rewrite length_app; simpl.
    repeat split.
    + f_equal; f_equal; lia.
    + f_equal; f_equal; lia.
    + rewrite app_nth2 by lia. rewrite Nat.sub_diag. reflexivity.
  - unfold insertRow, bind, com, ret, tbl_eng; simpl. rewrite Hb. simpl. split; reflexivity.
  - unfold duplicateRow, bind, com, ret, tbl_eng.
    cbn -[firstn skipn nth Z.to_nat Z.leb Z.ltb length]. rewrite Hb.
    cbn -[firstn skipn nth Z.to_nat]. repeat split.
    rewrite Z2Nat.inj_add by lia. change (Z.to_nat 1) with 1%nat.
    rewrite Nat.add_1_r.
    rewrite app_nth2 by (rewrite length_firstn; lia).
    rewrite length_firstn.
    replace (S (Z.to_nat row_id) - Nat.min (S (Z.to_nat row_id)) (length rows))%nat with 0%nat by lia.
    reflexivity.
Qed.

Lemma row_edit_returns_witness :
  0 <= 1 < Z.of_nat (length [[PyInt 10]; [PyInt 20]; [PyInt 30]]) /\
  let '(st1, o) := insertRow (tbl_eng (fun _ _ => true)) tbl_self 1 (mkTbl [[PyInt 10]; [PyInt 20]; [PyInt 30]] None, []) in
  tbl_rows (fst st1) = app (firstn 1 [[PyInt 10]; [PyInt 20]; [PyInt 30]]) ([] :: skipn 1 [[PyInt 10]; [PyInt 20]; [PyInt 30]]) /\
  o = Ret (PyInt 0).
Proof.
  split; [simpl; lia|].
  apply (row_edit_returns (fun _ _ => true) [[PyInt 10]; [PyInt 20]; [PyInt 30]] None [] 1).
  simpl; lia.
Defined.

(** C4: [RastrTable.column] and [RastrTables.table] dispatch on the runtime
    type of their argument: a [str] goes to the name lookup, an [int]
    (including [bool]) to the positional lookup, and any other value raises
    [UnexpectedResult] with engine state and call log untouched. *)
Theorem name_or_index_dispatch {EngState} (eng : EngState -> Call -> EngState * Outcome PyVal)
    (tbls : RastrTables) (t : RastrTable) (item : PyVal) (st : EngState) (tr : list Call) :
  (isinstance_str item = true ->
     table eng tbls item = getTableByName eng tbls item /\
     column eng t item = getByName eng (columns t) item) /\
  (isinstance_int item = true ->
     table eng tbls item = getTableByIndex eng tbls item /\
     column eng t item = getByIndex eng (columns t) item) /\
  (isinstance_str item = false -> isinstance_int item = false ->
     exists m1 m2,
       table eng tbls item (st, tr) = ((st, tr), Raise (UnexpectedResult m1)) /\
       column eng t item (st, tr) = ((st, tr), Raise (UnexpectedResult m2))).
Proof.
  unfold table, column. split; [|split].
  - intros H; rewrite H; auto.
  - intros H. destruct item; simpl in *; try discriminate; auto.
  - intros H1 H2; rewrite H1, H2. do 2 eexists; split; reflexivity.
Qed.

Lemma name_or_index_dispatch_witness :
  isinstance_int (PyInt 3) = true /\
  table (const_eng 0) (mkRastrTables (PyCom 5)) (PyInt 3) =
    getTableByIndex (const_eng 0) (mkRastrTables (PyCom 5)) (PyInt 3).
Proof.
  split; [reflexivity|].
  apply (proj1 (proj2 (name_or_index_dispatch (const_eng 0) (mkRastrTables (PyCom 5)) tbl_self
                         (PyInt 3) tt [])) eq_refl).
Defined.

(** C5: for every property kind string [k], with or without assertions
    enabled, [getProperty] and [setProperty] issue their COM call, [Prop] or
    [SetProp] at the kind's position in the list, exactly when [k] is one of
    the 13 kinds; any other [k] raises ([AssertionError], or [ValueError]
    from [list.index] when assertions are off) before any COM call. *)
Theorem property_kind_gate {EngState} (eng : EngState -> Call -> EngState * Outcome PyVal)
    (py_debug : bool) (self : RastrColumn) (k : string) (v : PyVal) (st : EngState) (tr : list Call) :
  (In k _property_types ->
     exists i, 0 <= i < 13 /\
       snd (fst (getProperty eng py_debug self (PyStr k) (st, tr))) =
         app tr [mkCall (_column self) "Prop" [PyInt i]] /\
       snd (fst (setProperty eng py_debug self (PyStr k) v (st, tr))) =
         app tr [mkCall (_column self) "SetProp" [PyInt i; v]]) /\
  (~ In k _property_types ->
     let e := if py_debug then AssertionError "Incorrect column property type!"
              else ValueError "is not in list" in
     getProperty eng py_debug self (PyStr k) (st, tr) = ((st, tr), Raise e) /\
     setProperty eng py_debug self (PyStr k) v (st, tr) = ((st, tr), Raise e)).
Proof.
  split.
  - intros Hin.
    assert (Hb : py_in_strs (PyStr k) _property_types = true) by (apply py_in_strs_In; exact Hin).
    destruct (str_index_In k _ Hin) as [i Hi].
    pose proof (str_index_bound k _property_types i Hi) as Hbd; simpl in Hbd.
    exists i; split; [exact Hbd|].
    unfold getProperty, setProperty, property_index, py_assert, bind, com, ret, py_index.
    rewrite Hb, andb_false_r, Hi.
    repeat match goal with |- context [eng ?s ?c] => destruct (eng s c) as [? [|]] end;
      split; reflexivity.
  - intros Hout.
    assert (Hb : py_in_strs (PyStr k) _property_types = false).
    { destruct (py_in_strs (PyStr k) _property_types) eqn:E; auto.
      apply py_in_strs_In in E; contradiction. }
    unfold getProperty, setProperty, property_index, py_assert, bind, py_index.
    rewrite Hb, (str_index_notIn k _ Hout).
    destruct py_debug; simpl; split; reflexivity.
Qed.

Lemma property_kind_gate_witness :
  In "FL_PREC" _property_types /\
  exists i, 0 <= i < 13 /\
    snd (fst (getProperty (const_eng 0) true (mkRastrColumn (PyCom 7)) (PyStr "FL_PREC") (tt, []))) =
      app [] [mkCall (PyCom 7) "Prop" [PyInt i]] /\
    snd (fst (setProperty (const_eng 0) true (mkRastrColumn (PyCom 7)) (PyStr "FL_PREC") (PyInt 4) (tt, []))) =
      app [] [mkCall (PyCom 7) "SetProp" [PyInt i; PyInt 4]].
Proof.
  assert (H : In "FL_PREC" _property_types) by (simpl; tauto).
  split; [exact H|].
  exact (proj1 (property_kind_gate (const_eng 0) true (mkRastrColumn (PyCom 7)) "FL_PREC" (PyInt 4) tt []) H).
Defined.

(** C6 (evaluation at the failing input): with assertions disabled
    ([python -O]), [setValue] with the unknown kind ["bogus"] makes no COM
    call and returns [None] without raising; with assertions enabled it
    raises [AssertionError]; the sibling [getValue] raises its explicit
    [Exception] in both modes. *)
Theorem setValue_unknown_kind_unchecked {EngState} (eng : EngState -> Call -> EngState * Outcome PyVal)
    (self : RastrColumn) (row_id : Z) (value : PyVal) (st : EngState) (tr : list Call) :
  setValue eng false self row_id value (PyStr "bogus") (st, tr) = ((st, tr), Ret PyNone) /\
  setValue eng true self row_id value (PyStr "bogus") (st, tr) =
    ((st, tr), Raise (AssertionError "Incorrect value type!")) /\
  getValue eng self row_id (PyStr "bogus") (st, tr) =
    ((st, tr), Raise (Exception_ "Incorrect value type!")).
Proof. repeat split. Qed.

(** C7 (amended): once the parameter string passes validation, each entry
    point returns "AST_OK", "AST_NB" or "AST_REPT" when the engine answers 0,
    1 or 2, and [None] for any other integer. *)
Theorem calc_entry_result_codes {EngState} (eng : EngState -> Call -> EngState * Outcome PyVal)
    (e : CalcEntryPoint) (self : Rastr) (s : string) (st st' : EngState) (tr : list Call) (z : Z) :
  Forall (fun c => In c calc_alphabet) (list_ascii_of_string s) ->
  eng st (mkCall (_Astra self) (entry_method e) [PyStr s]) = (st', Ret (PyInt z)) ->
  calc_entry_point eng e self s (st, tr) =
    ((st', app tr [mkCall (_Astra self) (entry_method e) [PyStr s]]),
     Ret (if z =? 0 then PyStr "AST_OK" else if z =? 1 then PyStr "AST_NB"
          else if z =? 2 then PyStr "AST_REPT" else PyNone)).
Proof.
  intros Hok Heng.
  rewrite calc_entry_point_method; unfold calc_entry, bind.
  rewrite (check_pars_ok s s (st, tr) Hok).
  unfold com; rewrite Heng; unfold ret.
  rewrite calc_codes_get_int; reflexivity.
Qed.

Lemma calc_entry_result_codes_witness :
  Forall (fun c => In c calc_alphabet) (list_ascii_of_string "pz") /\
  const_eng 1 tt (mkCall (PyCom 0) "rgm" [PyStr "pz"]) = (tt, Ret (PyInt 1)) /\
  calc_entry_point (const_eng 1) Rgm (mkRastr (PyCom 0)) "pz" (tt, []) =
    ((tt, [mkCall (PyCom 0) "rgm" [PyStr "pz"]]), Ret (PyStr "AST_NB")).
Proof.
  assert (Hok : Forall (fun c => In c calc_alphabet) (list_ascii_of_string "pz"))
    by (repeat constructor; simpl; tauto).
  split; [exact Hok|]. split; [reflexivity|].
  exact (calc_entry_result_codes (const_eng 1) Rgm (mkRastr (PyCom 0)) "pz" tt tt [] 1 Hok eq_refl).
Defined.

(** C7 (counterexample): [rgm("")] against an engine answering 3 passes
    validation and returns [None], none of the three outcome codes. *)
Lemma calc_entry_unknown_code_counterexample :
  snd (rgm (const_eng 3) (mkRastr (PyCom 0)) EmptyString (tt, [])) = Ret PyNone /\
  ~ In (snd (rgm (const_eng 3) (mkRastr (PyCom 0)) EmptyString (tt, [])))
       [Ret (PyStr "AST_OK"); Ret (PyStr "AST_NB"); Ret (PyStr "AST_REPT")].
Proof.
  split; [reflexivity|].
  simpl. intros [H|[H|[H|[]]]]; discriminate H.
Qed.

(** C8: each of [writeToCSV], [readCSV], [writeToCDU] and [readCDU] makes one
    COM call inside [try]; whatever exception [e] the engine raises there
    reaches the caller as the single exception [UnexpectedResult(e)], whose
    [message] is [e]; a normal answer gives [None]. *)
Theorem file_io_wraps_engine_errors {EngState} (eng : EngState -> Call -> EngState * Outcome PyVal)
    (self : RastrTable) (filepath : string) (parameters : list string)
    (sep code default_parameters : string) (st : EngState) (tr : list Call) :
  let wrap (c : Call) :=
    ((fst (eng st c), app tr [c]),
     match snd (eng st c) with
     | Ret _ => Ret PyNone
     | Raise e => Raise (UnexpectedResult (PyExcObj e))
     end) in
  let params := PyStr (py_join "," parameters) in
  writeToCSV eng self filepath parameters sep code (st, tr) =
    wrap (mkCall (_table self) "WriteCSV" [csv_codes_get code; PyStr filepath; params; PyStr sep]) /\
  readCSV eng self filepath parameters sep code default_parameters (st, tr) =
    wrap (mkCall (_table self) "ReadCSV"
            [csv_codes_get code; PyStr filepath; params; PyStr sep; PyStr default_parameters]) /\
  writeToCDU eng self filepath parameters code (st, tr) =
    wrap (mkCall (_table self) "WriteCDU" [cdu_codes_get code; PyStr filepath; params]) /\
  readCDU eng self filepath parameters code default_parameters (st, tr) =
    wrap (mkCall (_table self) "ReadCDU"
            [cdu_codes_get code; PyStr filepath; params; PyStr default_parameters]).
Proof.
  unfold writeToCSV, readCSV, writeToCDU, readCDU.
  repeat split; apply try_com_wrapped.
Qed.

(** C9: a [bool] argument to [RastrTable.column], [RastrTables.table] or
    [RastrTables.removeTable] takes the integer branch, the positional
    lookup or removal, with the [bool] itself as the index, whose integer
    value is 1 for [True] and 0 for [False]; it never reaches the
    invalid-argument branch. *)
Theorem bool_takes_index_branch {EngState} (eng : EngState -> Call -> EngState * Outcome PyVal)
    (tbls : RastrTables) (t : RastrTable) (b : bool) :
  column eng t (PyBool b) = getByIndex eng (columns t) (PyBool b) /\
  table eng tbls (PyBool b) = getTableByIndex eng tbls (PyBool b) /\
  removeTable eng tbls (PyBool b) = tables_removeByIndex eng tbls (PyBool b) /\
  py_int_value (PyBool b) = Some (if b then 1 else 0).
Proof. repeat split. Qed.

(** C10: a mode code outside the dictionary's keys raises nothing locally:
    [.get] maps it to [None], which is passed to the COM call inside [try], so
    the only error that can reach the caller is [UnexpectedResult] wrapping
    the engine's exception. *)
Theorem unknown_mode_reaches_engine {EngState} (eng : EngState -> Call -> EngState * Outcome PyVal)
    (self : RastrTable) (filepath : string) (parameters : list string)
    (sep csv_code cdu_code default_parameters : string) (st : EngState) (tr : list Call) :
  ~ In csv_code csv_code_names -> ~ In cdu_code cdu_code_names ->
  let params := PyStr (py_join "," parameters) in
  let outcome_ok (r : St EngState * Outcome PyVal) (c : Call) :=
    snd (fst r) = app tr [c] /\
    (snd r = Ret PyNone \/ exists e, snd r = Raise (UnexpectedResult (PyExcObj e))) in
  outcome_ok (writeToCSV eng self filepath parameters sep csv_code (st, tr))
    (mkCall (_table self) "WriteCSV" [PyNone; PyStr filepath; params; PyStr sep]) /\
  outcome_ok (readCSV eng self filepath parameters sep csv_code default_parameters (st, tr))
    (mkCall (_table self) "ReadCSV" [PyNone; PyStr filepath; params; PyStr sep; PyStr default_parameters]) /\
  outcome_ok (writeToCDU eng self filepath parameters cdu_code (st, tr))
    (mkCall (_table self) "WriteCDU" [PyNone; PyStr filepath; params]) /\
  outcome_ok (readCDU eng self filepath parameters cdu_code default_parameters (st, tr))
    (mkCall (_table self) "ReadCDU" [PyNone; PyStr filepath; params; PyStr default_parameters]).
Proof.
  intros Hcsv Hcdu params outcome_ok.
  unfold outcome_ok, writeToCSV, readCSV, writeToCDU, readCDU.
  rewrite (csv_codes_get_unknown csv_code Hcsv), (cdu_codes_get_unknown cdu_code Hcdu).
  repeat split; rewrite try_com_wrapped; simpl; try reflexivity;
    match goal with |- context [snd (eng ?s ?c)] => destruct (snd (eng s c)) end; eauto.
Qed.

Lemma unknown_mode_reaches_engine_witness :
  ~ In "CSV_BOGUS" csv_code_names /\ ~ In "CDU_BOGUS" cdu_code_names /\
  snd (fst (writeToCSV (const_eng 0) tbl_self "out.csv" ["ny"; "name"] ";" "CSV_BOGUS" (tt, []))) =
    [mkCall (PyCom 1) "WriteCSV" [PyNone; PyStr "out.csv"; PyStr "ny,name"; PyStr ";"]].
Proof.
  assert (H1 : ~ In "CSV_BOGUS" csv_code_names) by (simpl; intuition discriminate).
  assert (H2 : ~ In "CDU_BOGUS" cdu_code_names) by (simpl; intuition discriminate).
  split; [exact H1|]. split; [exact H2|].
  exact (proj1 (proj1 (unknown_mode_reaches_engine (const_eng 0) tbl_self "out.csv" ["ny"; "name"]
                         ";" "CSV_BOGUS" "CDU_BOGUS" EmptyString tt [] H1 H2))).
Defined.

(** * Further properties of the wrapper *)

Ltac eqb_cases x :=
  repeat match goal with
         | |- context [String.eqb x ?k] => destruct (String.eqb_spec x k); [subst|]
         end.

(** [Rastr.load]: an [rg_code] outside RG_ADD, RG_REPL, RG_KEY, RG_ADDKEY
    raises [UnexpectedResult] before any COM call and before the template
    lookup; a known code is passed to [Load] as its position in that list,
    with the given template, or without one when [use_template] is false,
    and [getTemplate] is then never consulted. *)
Theorem load_rg_code_dispatch {EngState} (eng : EngState -> Call -> EngState * Outcome PyVal)
    (get_template : string -> M EngState string) (self : Rastr) (filepath rg_code : string)
    (template : option string) (use_template : bool) (st : EngState) (tr : list Call) :
  let names := ["RG_ADD"; "RG_REPL"; "RG_KEY"; "RG_ADDKEY"] in
  let loaded (args : list PyVal) :=
    let c := mkCall (_Astra self) "Load" args in
    ((fst (eng st c), app tr [c]),
     match snd (eng st c) with Ret _ => Ret PyNone | Raise e => Raise e end) in
  (~ In rg_code names ->
     load eng get_template self filepath rg_code template use_template (st, tr) =
       ((st, tr), Raise (UnexpectedResult (PyStr "Incorrect parameter rg_kod!")))) /\
  (forall code t, str_index rg_code names = Some code -> template = Some t ->
     load eng get_template self filepath rg_code template use_template (st, tr) =
       loaded [PyInt code; PyStr filepath; PyStr t]) /\
  (forall code, str_index rg_code names = Some code -> template = None -> use_template = false ->
     load eng get_template self filepath rg_code template use_template (st, tr) =
       loaded [PyInt code; PyStr filepath]).
Proof.
  intros names loaded; unfold names, loaded; clear names loaded.
  split; [|split].
  - intros H. unfold load. eqb_cases rg_code; simpl in H; try tauto; reflexivity.
  - intros code t Hc Ht; subst template. unfold load, bind, com, ret.
    pose proof (str_index_some_In _ _ _ Hc) as Hin.
    eqb_cases rg_code; [..| exfalso; simpl in Hin; intuition congruence];
      simpl in Hc; injection Hc as <-; destruct (eng st _) as [? [|]]; reflexivity.
  - intros code Hc Ht Hu; subst template use_template. unfold load, bind, com, ret.
    pose proof (str_index_some_In _ _ _ Hc) as Hin.
    eqb_cases rg_code; [..| exfalso; simpl in Hin; intuition congruence];
      simpl in Hc; injection Hc as <-; destruct (eng st _) as [? [|]]; reflexivity.
Qed.

Lemma load_rg_code_dispatch_witness :
  ~ In "RG_BOGUS" ["RG_ADD"; "RG_REPL"; "RG_KEY"; "RG_ADDKEY"] /\
  load (const_eng 0) (fun _ => ret "t.rg2") (mkRastr (PyCom 0)) "x.rg2" "RG_BOGUS" None true (tt, []) =
    ((tt, []), Raise (UnexpectedResult (PyStr "Incorrect parameter rg_kod!"))).
Proof.
  assert (H : ~ In "RG_BOGUS" ["RG_ADD"; "RG_REPL"; "RG_KEY"; "RG_ADDKEY"])
    by (simpl; intuition discriminate).
  split; [exact H|].
  exact (proj1 (load_rg_code_dispatch (const_eng 0) (fun _ => ret "t.rg2") (mkRastr (PyCom 0))
                  "x.rg2" "RG_BOGUS" None true tt []) H).
Defined.

(** [Rastr.loadOldFile]: a mode other than "rge" or "cxe" raises
    [UnexpectedResult] before any COM call and before the template lookup;
    "rge" and "cxe" are passed to [LoadOldFile] as 0 and 1. *)
Theorem loadOldFile_mode_dispatch {EngState} (eng : EngState -> Call -> EngState * Outcome PyVal)
    (get_template : string -> M EngState string) (self : Rastr) (mode filepath : string)
    (template : option string) (st : EngState) (tr : list Call) :
  (mode <> "rge" -> mode <> "cxe" ->
     loadOldFile eng get_template self mode filepath template (st, tr) =
       ((st, tr), Raise (UnexpectedResult (PyStr "Incorrect parameter mode!")))) /\
  (forall code t, str_index mode ["rge"; "cxe"] = Some code -> template = Some t ->
     loadOldFile eng get_template self mode filepath template (st, tr) =
       let c := mkCall (_Astra self) "LoadOldFile" [PyInt code; PyStr filepath; PyStr t] in
       ((fst (eng st c), app tr [c]),
        match snd (eng st c) with Ret _ => Ret PyNone | Raise e => Raise e end)).
Proof.
  split.
  - intros H1 H2. unfold loadOldFile. eqb_cases mode; try congruence; reflexivity.
  - intros code t Hc Ht; subst template. unfold loadOldFile, bind, com, ret.
    pose proof (str_index_some_In _ _ _ Hc) as Hin.
    eqb_cases mode; [..| exfalso; simpl in Hin; intuition congruence];
      simpl in Hc; injection Hc as <-; destruct (eng st _) as [? [|]]; reflexivity.
Qed.

Lemma loadOldFile_mode_dispatch_witness :
  str_index "cxe" ["rge"; "cxe"] = Some 1 /\
  loadOldFile (const_eng 0) (fun _ => ret "t") (mkRastr (PyCom 0)) "cxe" "a.cxe" (Some "t") (tt, []) =
    ((tt, [mkCall (PyCom 0) "LoadOldFile" [PyInt 1; PyStr "a.cxe"; PyStr "t"]]), Ret PyNone).
Proof.
  split; [reflexivity|].
  exact (proj2 (loadOldFile_mode_dispatch (const_eng 0) (fun _ => ret "t") (mkRastr (PyCom 0))
                  "cxe" "a.cxe" (Some "t") tt []) 1 "t" eq_refl eq_refl).
Defined.

(** [Rastr.utParam] checks its argument only with [assert]: with assertions
    enabled an unknown parameter raises [AssertionError] before any COM call,
    while under [python -O] every argument is passed to [ut_Param]. *)
Theorem utParam_assert_only {EngState} (eng : EngState -> Call -> EngState * Outcome PyVal)
    (self : Rastr) (parameter : PyVal) (st : EngState) (tr : list Call) :
  (py_in_strs parameter ut_param_names = false ->
     utParam eng true self parameter (st, tr) =
       ((st, tr), Raise (AssertionError "Incorrect weighting parameter!"))) /\
  (py_in_strs parameter ut_param_names = true ->
     utParam eng true self parameter (st, tr) = com eng (_Astra self) "ut_Param" [parameter] (st, tr)) /\
  utParam eng false self parameter (st, tr) = com eng (_Astra self) "ut_Param" [parameter] (st, tr).
Proof.
  unfold utParam, py_assert, bind, ret.
  split; [|split]; [intros H; rewrite H; reflexivity | intros H; rewrite H |]; simpl;
    destruct (com eng (_Astra self) "ut_Param" [parameter] (st, tr)); reflexivity.
Qed.

Lemma utParam_assert_only_witness :
  py_in_strs (PyStr "UT_BOGUS") ut_param_names = false /\
  utParam (const_eng 0) true (mkRastr (PyCom 0)) (PyStr "UT_BOGUS") (tt, []) =
    ((tt, []), Raise (AssertionError "Incorrect weighting parameter!")).
Proof.
  split; [reflexivity|].
  exact (proj1 (utParam_assert_only (const_eng 0) (mkRastr (PyCom 0)) (PyStr "UT_BOGUS") tt []) eq_refl).
Defined.

(** [RastrColumns.add]: a column type among the seven is passed to the COM
    [Add] as its position in [_column_types]; any other type string fails
    before any COM call, with [AssertionError], or with [ValueError] from
    [list.index] under [python -O]. *)
Theorem columns_add_type_gate {EngState} (eng : EngState -> Call -> EngState * Outcome PyVal)
    (py_debug : bool) (self : RastrColumns) (name : PyVal) (k : string) (st : EngState) (tr : list Call) :
  (forall i, str_index k _column_types = Some i ->
     columns_add eng py_debug self name (PyStr k) (st, tr) =
       let c := mkCall (_cols self) "Add" [name; PyInt i] in
       ((fst (eng st c), app tr [c]),
        match snd (eng st c) with Ret h => Ret (mkRastrColumn h) | Raise e => Raise e end)) /\
  (~ In k _column_types ->
     columns_add eng py_debug self name (PyStr k) (st, tr) =
       ((st, tr), Raise (if py_debug then AssertionError "Incorrect column value type!"
                         else ValueError "is not in list"))).
Proof.
  split.
  - intros i Hi.
    assert (Hin : py_in_strs (PyStr k) _column_types = true).
    { apply py_in_strs_In. destruct (in_dec string_dec k _column_types) as [H|H]; auto.
      rewrite str_index_notIn in Hi by exact H; discriminate. }
    unfold columns_add, py_assert, bind, com, ret, py_index.
    rewrite Hin, andb_false_r, Hi. simpl.
    destruct (eng st _) as [? [|]]; reflexivity.
  - intros Hout.
    assert (Hb : py_in_strs (PyStr k) _column_types = false).
    { destruct (py_in_strs (PyStr k) _column_types) eqn:E; auto.
      apply py_in_strs_In in E; contradiction. }
    unfold columns_add, py_assert, bind, py_index.
    rewrite Hb, (str_index_notIn k _ Hout). destruct py_debug; reflexivity.
Qed.

Lemma columns_add_type_gate_witness :
  str_index "PR_REAL" _column_types = Some 1 /\
  columns_add (const_eng 9) true (mkRastrColumns (PyCom 2)) (PyStr "pg") (PyStr "PR_REAL") (tt, []) =
    ((tt, [mkCall (PyCom 2) "Add" [PyStr "pg"; PyInt 1]]), Ret (mkRastrColumn (PyInt 9))).
Proof.
  split; [reflexivity|].
  exact (proj1 (columns_add_type_gate (const_eng 9) true (mkRastrColumns (PyCom 2)) (PyStr "pg")
                  "PR_REAL" tt []) 1 eq_refl).
Defined.


Lemma RowIterator_take_iter_rows {EngState} (eng : EngState -> Call -> EngState * Outcome PyVal)
    (self : RastrTable) :
  (forall s c, call_method c = "FindNextSel" -> snd (eng s c) <> Ret PyNone) ->
  forall n prev st,
  RowIterator_take eng n (mkRowIterator prev (_table self)) st = iter_rows_take eng self n prev st.
Proof.
  intros Hnone n; induction n as [|n IH]; intros prev [s tr]; [reflexivity|].
  simpl. unfold RowIterator_next, findNextRowSelection, bind, com, ret; simpl.
  specialize (Hnone s (mkCall (_table self) "FindNextSel" [prev]) eq_refl).
  destruct (eng s _) as [s' [i|e]]; [|reflexivity]. simpl in Hnone.
  destruct (py_eq_int i (-1)); simpl; [reflexivity|].
  destruct i; try (exfalso; apply Hnone; reflexivity); simpl;
    rewrite IH; reflexivity.
Qed.

(** [iter(table)] ([RowIterator]) and [table.iterRows()] yield the same row
    ids and issue the same [FindNextSel] calls, as long as the engine never
    answers [FindNextSel] with [None] (a [None] answer would end [iterRows]
    but be yielded by [RowIterator]). *)
Theorem iter_matches_iterRows {EngState} (eng : EngState -> Call -> EngState * Outcome PyVal)
    (self : RastrTable) (n : nat) (st : St EngState) :
  (forall s c, call_method c = "FindNextSel" -> snd (eng s c) <> Ret PyNone) ->
  RowIterator_take eng n (RastrTable_iter self) st = iterRows_take eng self n st.
Proof. intros H; apply (RowIterator_take_iter_rows eng self H). Qed.

Lemma iter_matches_iterRows_witness :
  (forall s c, call_method c = "FindNextSel" -> snd (const_eng 5 s c) <> Ret PyNone) /\
  RowIterator_take (const_eng 5) 3 (RastrTable_iter tbl_self) (tt, []) =
    iterRows_take (const_eng 5) tbl_self 3 (tt, []).
Proof.
  assert (H : forall s c, call_method c = "FindNextSel" -> snd (const_eng 5 s c) <> Ret PyNone)
    by (intros s c _; simpl; discriminate).
  split; [exact H|].
  exact (iter_matches_iterRows (const_eng 5) tbl_self 3 (tt, []) H).
Defined.



Lemma filter_true {A} (l : list A) : filter (fun _ => true) l = l.
Proof. induction l; simpl; congruence. Qed.

(** On the table engine, [setSelection(p)] returns the number of rows the
    predicate [p] selects, and [setSelection] with the empty string returns
    the full row count, the number [rowsCount] reports. *)
Theorem setSelection_counts (sel_holds : string -> list PyVal -> bool)
    (rows : list (list PyVal)) (sel : option string) (tr : list Call) (p : string) :
  snd (setSelection (tbl_eng sel_holds) tbl_self p (mkTbl rows sel, tr)) =
    Ret (PyInt (Z.of_nat (length (filter (fun r => if String.eqb p EmptyString then true
                                                    else sel_holds p r) rows)))) /\
  snd (setSelection (tbl_eng sel_holds) tbl_self EmptyString (mkTbl rows sel, tr)) =
    snd (rowsCount (tbl_eng sel_holds) tbl_self (mkTbl rows sel, tr)).
Proof.
  split.
  - unfold setSelection, bind, com; simpl.
    destruct (String.eqb p EmptyString); reflexivity.
  - unfold setSelection, bind, com; simpl. unfold row_selected; simpl.
    rewrite filter_true; reflexivity.
Qed.

(** [RastrTable.get] looks the column up (one COM [Item] call) before it
    checks the value kind: with an unknown kind it raises [Exception] after
    that call, not before any COM call as [RastrColumn.getValue] alone does. *)
Theorem table_get_lookup_before_kind_check {EngState} (eng : EngState -> Call -> EngState * Outcome PyVal)
    (t : RastrTable) (row_id : Z) (col kind h : PyVal) (st st1 : EngState) (tr : list Call) :
  isinstance_str col || isinstance_int col = true ->
  eng st (mkCall (_cols (columns t)) "Item" [col]) = (st1, Ret h) ->
  py_in_strs kind _value_types = false ->
  RastrTable_get eng t row_id col kind (st, tr) =
    ((st1, app tr [mkCall (_cols (columns t)) "Item" [col]]), Raise (Exception_ "Incorrect value type!")).
Proof.
  intros Hcol Heng Hk.
  unfold RastrTable_get, column.
  destruct (isinstance_str col); [|destruct (isinstance_int col); [|discriminate]];
    unfold getByName, getByIndex, bind, com; rewrite Heng; simpl;
    unfold getValue; rewrite Hk; reflexivity.
Qed.

Lemma table_get_lookup_before_kind_check_witness :
  isinstance_str (PyStr "pg") || isinstance_int (PyStr "pg") = true /\
  const_eng 4 tt (mkCall (PyCom 2) "Item" [PyStr "pg"]) = (tt, Ret (PyInt 4)) /\
  py_in_strs (PyStr "bogus") _value_types = false /\
  RastrTable_get (const_eng 4) tbl_self 0 (PyStr "pg") (PyStr "bogus") (tt, []) =
    ((tt, [mkCall (PyCom 2) "Item" [PyStr "pg"]]), Raise (Exception_ "Incorrect value type!")).
Proof.
  split; [reflexivity|]. split; [reflexivity|]. split; [reflexivity|].
  exact (table_get_lookup_before_kind_check (const_eng 4) tbl_self 0 (PyStr "pg") (PyStr "bogus")
           (PyInt 4) tt tt [] eq_refl eq_refl eq_refl).
Defined.

(** Every exception [writeToCSV], [readCSV], [writeToCDU] and [readCDU]
    raise is an [UnexpectedResult] whose [message] is the engine's exception
    object, so [str()] of it raises [TypeError]: [__str__] returns that
    non-string message. *)
Theorem io_error_str_fails {EngState} (eng : EngState -> Call -> EngState * Outcome PyVal)
    (self : RastrTable) (filepath : string) (parameters : list string)
    (sep code default_parameters : string) (st : St EngState) :
  let str_fails (o : Outcome PyVal) :=
    match o with
    | Ret _ => True
    | Raise (UnexpectedResult m) => UnexpectedResult_str m = Some (Raise (TypeError "__str__ returned non-string"))
    | Raise _ => False
    end in
  str_fails (snd (writeToCSV eng self filepath parameters sep code st)) /\
  str_fails (snd (readCSV eng self filepath parameters sep code default_parameters st)) /\
  str_fails (snd (writeToCDU eng self filepath parameters code st)) /\
  str_fails (snd (readCDU eng self filepath parameters code default_parameters st)).
Proof.
  destruct st as [s tr]. intros str_fails.
  unfold writeToCSV, readCSV, writeToCDU, readCDU.
  repeat split; rewrite try_com_wrapped; simpl;
    match goal with |- context [snd (eng ?s ?c)] => destruct (snd (eng s c)) end; exact I + reflexivity.
Qed.

Lemma OnLog_defined (code : Z) (d : PyVal) :
  0 <= code <= 10 -> exists level, OnLog code d = Ret (level, d).
Proof.
  intros H.
  assert (code = 0 \/ code = 1 \/ code = 2 \/ code = 3 \/ code = 4 \/ code = 5 \/ code = 6 \/
          code = 7 \/ code = 8 \/ code = 9 \/ code = 10) as Hc by lia.
  repeat destruct Hc as [Hc|Hc]; subst; eexists; reflexivity.
Qed.

(** [RastrEvents.OnLog] logs codes 0 to 10 at a level that never increases
    with the code (50, 50, 40, 30, 20, 20, 10, 10, 10, 10, 0), and raises
    [TypeError] from [logging.log] for any other code. *)
Theorem OnLog_levels (a b : Z) (d : PyVal) :
  (0 <= a <= b /\ b <= 10 ->
     exists la lb, OnLog a d = Ret (la, d) /\ OnLog b d = Ret (lb, d) /\ lb <= la) /\
  (a < 0 \/ 10 < a -> OnLog a d = Raise (TypeError "level must be an integer")).
Proof.
  split.
  - intros H.
    assert (a = 0 \/ a = 1 \/ a = 2 \/ a = 3 \/ a = 4 \/ a = 5 \/ a = 6 \/
            a = 7 \/ a = 8 \/ a = 9 \/ a = 10) as Ha by lia.
    assert (b = 0 \/ b = 1 \/ b = 2 \/ b = 3 \/ b = 4 \/ b = 5 \/ b = 6 \/
            b = 7 \/ b = 8 \/ b = 9 \/ b = 10) as Hb by lia.
    repeat destruct Ha as [Ha|Ha]; repeat destruct Hb as [Hb|Hb]; subst;
      try lia; do 2 eexists; (split; [reflexivity|split; [reflexivity|lia]]).
  - intros H. unfold OnLog, rastr_code_info.
    repeat (rewrite (proj2 (Z.eqb_neq a _)) by lia).
    reflexivity.
Qed.

Lemma OnLog_levels_witness :
  (0 <= 3 <= 7 /\ 7 <= 10) /\
  exists la lb, OnLog 3 PyNone = Ret (la, PyNone) /\ OnLog 7 PyNone = Ret (lb, PyNone) /\ lb <= la.
Proof.
  assert (H : 0 <= 3 <= 7 /\ 7 <= 10) by lia.
  split; [exact H|].
  exact (proj1 (OnLog_levels 3 7 PyNone) H).
Defined.

(** Indices (from [j]) of the rows of [l] the table's selection keeps. *)
Fixpoint selected_ids (sel_holds : string -> list PyVal -> bool) (s : TblState)
    (l : list (list PyVal)) (j : nat) : list nat :=
  match l with
  | [] => []
  | r :: l' => if row_selected sel_holds s r then j :: selected_ids sel_holds s l' (S j)
               else selected_ids sel_holds s l' (S j)
  end.

Lemma selected_ids_filter h s l j :
  selected_ids h s l j = filter (fun k => row_selected h s (nth (k - j) l [])) (seq j (length l)).
Proof.
  revert j; induction l as [|r l IH]; intros j; [reflexivity|].
  simpl. rewrite Nat.sub_diag, IH.
  assert (E : filter (fun k => row_selected h s (nth (k - S j) l [])) (seq (S j) (length l)) =
              filter (fun k => row_selected h s (nth (k - j) (r :: l) [])) (seq (S j) (length l))).
  { apply filter_ext_in. intros k Hk. apply in_seq in Hk.
    replace (k - j)%nat with (S (k - S j)) by lia. reflexivity. }
  rewrite E. destruct (row_selected h s r); reflexivity.
Qed.

Lemma find_from_none h s l j :
  find_from h s l j = None -> selected_ids h s l j = [].
Proof.
  revert j; induction l as [|r l IH]; intros j; simpl; [reflexivity|].
  destruct (row_selected h s r); [discriminate|apply IH].
Qed.

Lemma find_from_some h s l j j' :
  find_from h s l j = Some j' ->
  (j <= j' < j + length l)%nat /\
  selected_ids h s l j = j' :: selected_ids h s (skipn (S j' - j) l) (S j').
Proof.
  revert j; induction l as [|r l IH]; intros j; cbn [find_from selected_ids]; [discriminate|].
  destruct (row_selected h s r).
  - intros H; inversion H; subst. simpl length. split; [lia|].
    replace (S j' - j')%nat with 1%nat by lia. reflexivity.
  - intros H. destruct (IH (S j) H) as [Hb Hs]. simpl length. split; [lia|].
    rewrite Hs. replace (S j' - j)%nat with (S (S j' - S j)) by lia. reflexivity.
Qed.

Lemma iter_rows_tbl (h : string -> list PyVal -> bool) (s : TblState) :
  forall fuel i tr, -1 <= i ->
  (length (skipn (Z.to_nat (i + 1)) (tbl_rows s)) < fuel)%nat ->
  exists tr', iter_rows_take (tbl_eng_iter h) tbl_self fuel (PyInt i) (s, tr) =
    ((s, tr'), Ret (map (fun j => PyInt (Z.of_nat j))
                     (selected_ids h s (skipn (Z.to_nat (i + 1)) (tbl_rows s)) (Z.to_nat (i + 1))))).
Proof.
  induction fuel as [|fuel IH]; intros i tr Hi Hf; [lia|].
  simpl iter_rows_take. unfold findNextRowSelection, bind, com, ret. simpl.
  destruct (find_from h s (skipn (Z.to_nat (i + 1)) (tbl_rows s)) (Z.to_nat (i + 1))) as [j|] eqn:F.
  - destruct (find_from_some _ _ _ _ _ F) as [Hb Hs].
    assert (Hne : py_eq_int (PyInt (Z.of_nat j)) (-1) = false) by (simpl; apply Z.eqb_neq; lia).
    rewrite Hne.
    assert (Hj : Z.to_nat (Z.of_nat j + 1) = S j) by lia.
    assert (Hsk : skipn (S j - Z.to_nat (i + 1)) (skipn (Z.to_nat (i + 1)) (tbl_rows s)) =
                  skipn (S j) (tbl_rows s)).
    { rewrite skipn_skipn. f_equal. lia. }
    destruct (IH (Z.of_nat j) (app tr [mkCall (PyCom 1) "FindNextSel" [PyInt i]])) as [tr' E];
      [lia| rewrite Hj; rewrite length_skipn in *; lia|].
    exists tr'. rewrite E, Hs, Hsk, Hj. reflexivity.
  - rewrite (find_from_none _ _ _ _ F). simpl.
    eexists; reflexivity.
Qed.

(** On a table whose engine implements [FindNextSel], [table.iterRows()]
    yields exactly the ids of the selected rows, in increasing order, then
    stops; it changes nothing in the table. *)
Theorem iterRows_yields_selected (h : string -> list PyVal -> bool)
    (rows : list (list PyVal)) (sel : option string) (tr : list Call) :
  exists tr', iterRows_take (tbl_eng_iter h) tbl_self (S (length rows)) (mkTbl rows sel, tr) =
    ((mkTbl rows sel, tr'),
     Ret (map (fun j => PyInt (Z.of_nat j))
            (filter (fun j => row_selected h (mkTbl rows sel) (nth j rows [])) (seq 0 (length rows))))).
Proof.
  unfold iterRows_take.
  destruct (iter_rows_tbl h (mkTbl rows sel) (S (length rows)) (-1) tr) as [tr' E];
    [lia| simpl; lia|].
  exists tr'. rewrite E. simpl Z.to_nat. simpl skipn. rewrite selected_ids_filter.
  do 3 f_equal. apply filter_ext. intros k. rewrite Nat.sub_0_r. reflexivity.
Qed.

Lemma columns_from_log {EngState} (eng : EngState -> Call -> EngState * Outcome PyVal)
    (self : RastrTable) :
  (forall s c, call_method c = "Item" -> exists s' h, eng s c = (s', Ret h)) ->
  forall k i s tr, exists s' cols,
    columns_from eng self (Z.of_nat i) k (s, tr) =
      ((s', app tr (map (fun j => mkCall (_cols (columns self)) "Item" [PyInt (Z.of_nat j)]) (seq i k))),
       Ret cols) /\ length cols = k.
Proof.
  intros Hitem k; induction k as [|k IH]; intros i s tr.
  - exists s, []. simpl. rewrite app_nil_r. split; reflexivity.
  - simpl columns_from. unfold column, getByIndex, bind, com, ret. simpl.
    destruct (Hitem s (mkCall (_cols (columns self)) "Item" [PyInt (Z.of_nat i)]) eq_refl)
      as [s1 [h1 E1]].
    rewrite E1.
    destruct (IH (S i) s1 (app tr [mkCall (_cols (columns self)) "Item" [PyInt (Z.of_nat i)]]))
      as [s' [cols [E Hl]]].
    rewrite Nat2Z.inj_succ, <- Z.add_1_r in E.
    exists s', (mkRastrColumn h1 :: cols). rewrite E. simpl.
    rewrite <- app_assoc. split; [reflexivity|]. simpl; congruence.
Qed.

(** [list(table.iterColumns())] asks the column collection for its [Count]
    once, then for [Item(0)], ..., [Item(n-1)] in that order, one column per
    index, when the count is [n] and no [Item] call fails. *)
Theorem iterColumns_call_log {EngState} (eng : EngState -> Call -> EngState * Outcome PyVal)
    (self : RastrTable) (st st1 : EngState) (tr : list Call) (n : nat) :
  eng st (mkCall (_cols (columns self)) "Count" []) = (st1, Ret (PyInt (Z.of_nat n))) ->
  (forall s c, call_method c = "Item" -> exists s' h, eng s c = (s', Ret h)) ->
  exists st' cols,
    iterColumns_list eng self (st, tr) =
      ((st', app tr (mkCall (_cols (columns self)) "Count" [] ::
                     map (fun j => mkCall (_cols (columns self)) "Item" [PyInt (Z.of_nat j)]) (seq 0 n))),
       Ret cols) /\ length cols = n.
Proof.
  intros Hc Hitem.
  unfold iterColumns_list, bind, com. simpl. rewrite Hc. simpl.
  rewrite Nat2Z.id.
  destruct (columns_from_log eng self Hitem n 0 st1
              (app tr [mkCall (_cols (columns self)) "Count" []])) as [st' [cols [E Hl]]].
  exists st', cols. simpl Z.of_nat in E. rewrite E, <- app_assoc. split; [reflexivity|exact Hl].
Qed.

Lemma iterColumns_call_log_witness :
  exists st' cols,
    iterColumns_list (const_eng 2) tbl_self (tt, []) =
      ((st', app [] (mkCall (PyCom 2) "Count" [] ::
                     map (fun j => mkCall (PyCom 2) "Item" [PyInt (Z.of_nat j)]) (seq 0 2))),
       Ret cols) /\ length cols = 2%nat.
Proof.
  apply (iterColumns_call_log (const_eng 2) tbl_self tt tt [] 2); [reflexivity|].
  intros s c _. exists s, (PyInt 2). reflexivity.
Defined.

(** [RastrTable.get] only reads: the COM calls it makes are the column
    lookup [Item] and one of the readers [ZN], [Z], [ZS]. [RastrTable.set]
    makes the lookup and at most one of the writers [SetZN], [SetZ],
    [SetZS], whatever the engine answers. *)
Theorem table_get_set_calls {EngState} (eng : EngState -> Call -> EngState * Outcome PyVal)
    (py_debug : bool) (t : RastrTable) (row_id : Z) (col value kind : PyVal)
    (st : EngState) (tr : list Call) :
  (let '((_, tr'), _) := RastrTable_get eng t row_id col kind (st, tr) in
   exists calls, tr' = app tr calls /\
     Forall (fun c => In (call_method c) ["Item"; "ZN"; "Z"; "ZS"]) calls) /\
  (let '((_, tr'), _) := RastrTable_set eng py_debug t row_id col value kind (st, tr) in
   exists calls, tr' = app tr calls /\
     Forall (fun c => In (call_method c) ["Item"; "SetZN"; "SetZ"; "SetZS"]) calls).
Proof.
  unfold RastrTable_get, RastrTable_set, column, getByName, getByIndex, getValue, setValue,
    py_assert, bind, com, ret, raise.
  split;
  repeat match goal with
         | |- context [if ?b then _ else _] => destruct b
         | |- context [eng ?s ?c] => destruct (eng s c) as [? [?|?]]
         end; simpl;
  first [ exists []; rewrite app_nil_r; split; [reflexivity|constructor]
        | eexists; split; [rewrite <- app_assoc; reflexivity|repeat constructor; simpl; tauto]
        | eexists; split; [reflexivity|repeat constructor; simpl; tauto] ].
Qed.
